(** * Shallow embedding of [bokeh/core/state.py]: the [State] object that
    tracks the implicit output configuration of the plotting API.

    A Python object is mutable and its methods may raise, so every method is
    written in a small state-and-exception monad over the pair
    ([World], [State]): [State] holds the attributes of the [State] object,
    [World] holds what the methods touch outside of it (the Python heap of
    [Document] objects, the file system seen by [os.path.isfile], and the
    records written through [logger.info]). *)

From Stdlib Require Import String List Bool Arith Lia.
Import ListNotations.
Open Scope string_scope.

Module BokehState.

(** ** Data *)

(** Exceptions a method may let escape. *)
Inductive exc : Type :=
| ValueError (msg : string).

(** A [Document] is a Python object: its identity is its index in the heap
    of allocated documents; its content is the list of its root models. *)
Definition DocId := nat.
Definition DocContent := list nat.

Record World := mkWorld {
  heap : list DocContent;   (* every Document allocated so far *)
  fs : list string;         (* the files that exist on disk *)
  log : list string         (* messages emitted by logger.info *)
}.

Record Resources := mkResources {
  res_mode : string;
  res_root_dir : option string
}.

(** The dict assigned to [self._file]:
    [{'filename': ..., 'resources': ..., 'title': ...}]. *)
Record FileConfig := mkFileConfig {
  fc_filename : string;
  fc_resources : Resources;
  fc_title : string
}.

(** The dict an [_SessionCoordinates] is built from, as an association list. *)
Definition PyDict := list (string * string).

Record SessionCoordinates := mkSessionCoordinates {
  sc_session_id : option string;
  sc_url : option string;
  sc_app_path : option string
}.

(** The attributes of a [State] object. *)
Record State := mkState {
  last_comms_handle : option nat;
  _document : DocId;
  _file : option FileConfig;
  _notebook : bool;
  _session_coords : SessionCoordinates;
  _server_enabled : bool
}.

(** ** The state-and-exception monad *)

Definition Conf := (World * State)%type.
Definition M (A : Type) := Conf -> (A + exc) * Conf.

Definition ret {A} (a : A) : M A := fun c => (inl a, c).
Definition raise {A} (e : exc) : M A := fun c => (inr e, c).
Definition bind {A B} (m : M A) (k : A -> M B) : M B :=
  fun c => match m c with
           | (inl a, c') => k a c'
           | (inr e, c') => (inr e, c')
           end.

Notation "x <- m ;; k" := (bind m (fun x => k))
  (at level 61, m at next level, right associativity).
Notation "m ;;; k" := (bind m (fun _ => k))
  (at level 61, right associativity).

Definition gets {A} (f : State -> A) : M A := fun '(w, s) => (inl (f s), (w, s)).
Definition modify (f : State -> State) : M unit := fun '(w, s) => (inl tt, (w, f s)).
Definition lift {A} (r : A + exc) : M A :=
  match r with inl a => ret a | inr e => raise e end.

(** Assignments to single attributes ([self.x = v]). *)
Definition set_last_comms_handle v (s : State) : State :=
  mkState v (_document s) (_file s) (_notebook s) (_session_coords s) (_server_enabled s).
Definition set__document v (s : State) : State :=
  mkState (last_comms_handle s) v (_file s) (_notebook s) (_session_coords s) (_server_enabled s).
Definition set__file v (s : State) : State :=
  mkState (last_comms_handle s) (_document s) v (_notebook s) (_session_coords s) (_server_enabled s).
Definition set__notebook v (s : State) : State :=
  mkState (last_comms_handle s) (_document s) (_file s) v (_session_coords s) (_server_enabled s).
Definition set__session_coords v (s : State) : State :=
  mkState (last_comms_handle s) (_document s) (_file s) (_notebook s) v (_server_enabled s).
Definition set__server_enabled v (s : State) : State :=
  mkState (last_comms_handle s) (_document s) (_file s) (_notebook s) (_session_coords s) v.

(** ** Collaborators that live outside [src/] *)

(** Modelled from the spec: the constructor [Document()] of
    [bokeh.document] ("a new empty one"): allocates a fresh Document object
    with no roots and returns it. *)
Definition Document : M DocId :=
  fun '(w, s) =>
    (inl (length (heap w)), (mkWorld (heap w ++ [[]]) (fs w) (log w), s)).

(** Modelled from the spec: the constructor [Resources(mode, root_dir)] of
    [bokeh.resources] ("argument validation delegated to collaborator
    types"); it accepts the modes the [output_file] docstring lists and
    raises [ValueError] on any other. *)
Definition valid_modes : list string :=
  ["inline"; "cdn"; "relative"; "relative-dev"; "absolute"; "absolute-dev"].

Definition mode_error (mode : string) : string :=
  "wrong value for 'mode' parameter, expected one of the known modes, got " ++ mode.

Definition Resources_new (mode : string) (root_dir : option string) : M Resources :=
  if existsb (String.eqb mode) valid_modes
  then ret (mkResources mode root_dir)
  else raise (ValueError (mode_error mode)).

Fixpoint dict_get (d : PyDict) (k : string) : option string :=
  match d with
  | [] => None
  | (k', v) :: d' => if String.eqb k k' then Some v else dict_get d' k
  end.

(** The fields an [_SessionCoordinates] holds: the entries of the dict
    it was built from. *)
Definition SessionCoordinates_new (d : PyDict) : SessionCoordinates :=
  mkSessionCoordinates (dict_get d "session_id") (dict_get d "url") (dict_get d "app_path").

(** The default localhost URL of a Bokeh server ([DEFAULT_SERVER_HTTP_URL]),
    which the [output_server] docstring says [url="default"] stands for. *)
Definition DEFAULT_SERVER_HTTP_URL : string := "http://localhost:5006/".

(** The base URL the coordinates of a dict denote: the default localhost
    URL when the dict has no [url] or has ["default"]. *)
Definition coords_url (d : PyDict) : string :=
  match dict_get d "url" with
  | None => DEFAULT_SERVER_HTTP_URL
  | Some u => if String.eqb u "default" then DEFAULT_SERVER_HTTP_URL else u
  end.

Definition coords_app_path (d : PyDict) : string :=
  match dict_get d "app_path" with None => "/" | Some a => a end.

(** Modelled from the spec: the constructor [_SessionCoordinates(dict)] of
    [bokeh.resources] ("session coordinates: sessionId, url, appPath";
    "argument validation delegated to collaborator types ...
    SessionCoordinates constructors"). It raises [ValueError] on a
    websocket ([ws...]) URL and on an app path that does not start with a
    slash, and otherwise holds the entries of the dict. *)
Definition _SessionCoordinates (d : PyDict) : SessionCoordinates + exc :=
  if String.prefix "ws" (coords_url d)
  then inr (ValueError "url should be the http or https URL for the server, not the websocket URL")
  else if negb (String.prefix "/" (coords_app_path d))
  then inr (ValueError "app_path should start with a slash (/)")
  else inl (SessionCoordinates_new d).

(** Removes one trailing slash. *)
Fixpoint drop_trailing_slash (x : string) : string :=
  match x with
  | EmptyString => EmptyString
  | String c EmptyString => if Ascii.eqb c (Ascii.ascii_of_nat 47) then EmptyString else String c EmptyString
  | String c r => String c (drop_trailing_slash r)
  end.

(** Modelled from the spec: the read-only properties of
    [_SessionCoordinates] ("session id (and a none-tolerant variant), base
    URL, full server URL, app path"). The spec does not say what
    [session_id] does without a session id; it is modelled as raising,
    which is what sets it apart from the none-tolerant variant. The base
    URL is the default localhost URL for an absent or ["default"] url; the
    full URL is the base URL and the app path joined by one slash. *)
Definition SC_session_id (c : SessionCoordinates) : string + exc :=
  match sc_session_id c with
  | Some x => inl x
  | None => inr (ValueError "no session id")
  end.
Definition SC_session_id_allowing_none (c : SessionCoordinates) : option string :=
  sc_session_id c.
Definition SC_url (c : SessionCoordinates) : string :=
  match sc_url c with
  | None => DEFAULT_SERVER_HTTP_URL
  | Some u => if String.eqb u "default" then DEFAULT_SERVER_HTTP_URL else u
  end.
Definition SC_app_path (c : SessionCoordinates) : string :=
  match sc_app_path c with Some p => p | None => "/" end.
Definition SC_server_url (c : SessionCoordinates) : string :=
  drop_trailing_slash (SC_url c) ++ SC_app_path c.

(** [DEFAULT_SESSION_ID] of [bokeh.client]. *)
Definition DEFAULT_SESSION_ID : string := "default".

(** [os.path.isfile] and [logger.info]. *)
Definition isfile (filename : string) : M bool :=
  fun '(w, s) => (inl (existsb (String.eqb filename) (fs w)), (w, s)).
Definition logger_info (msg : string) : M unit :=
  fun '(w, s) => (inl tt, (mkWorld (heap w) (fs w) (log w ++ [msg]), s)).

(** ** The methods of [State] *)

(** Read-only properties. *)
Definition document : M DocId := gets _document.
Definition file : M (option FileConfig) := gets _file.
Definition notebook : M bool := gets _notebook.
Definition server_enabled : M bool := gets _server_enabled.
Definition session_id : M string :=
  c <- gets _session_coords ;; lift (SC_session_id c).
Definition session_id_allowing_none : M (option string) :=
  c <- gets _session_coords ;; ret (SC_session_id_allowing_none c).
Definition url : M string :=
  c <- gets _session_coords ;; ret (SC_url c).
Definition server_url : M string :=
  c <- gets _session_coords ;; ret (SC_server_url c).
Definition app_path : M string :=
  c <- gets _session_coords ;; ret (SC_app_path c).

(** [@document.setter]. *)
Definition set_document (doc : DocId) : M unit :=
  modify (set__document doc).

Definition _reset_keeping_doc : M unit :=
  modify (set__file None) ;;;
  modify (set__notebook false) ;;;
  sc <- lift (_SessionCoordinates []) ;;
  modify (set__session_coords sc) ;;;
  modify (set__server_enabled false).

Definition _reset_with_doc (doc : DocId) : M unit :=
  modify (set__document doc) ;;;
  _reset_keeping_doc.

Definition reset : M unit :=
  doc <- Document ;; _reset_with_doc doc.

Definition overwrite_msg (filename : string) : string :=
  "Session output file '" ++ filename ++ "' already exists, will be overwritten.".

Definition output_file (filename : string) (title : string) (mode : string)
    (root_dir : option string) : M unit :=
  r <- Resources_new mode root_dir ;;
  modify (set__file (Some (mkFileConfig filename r title))) ;;;
  b <- isfile filename ;;
  if b
  then logger_info (overwrite_msg filename)
  else ret tt.

(** [output_file(filename)] with the default [title="Bokeh Plot"],
    [mode="cdn"], [root_dir=None]. *)
Definition output_file_default (filename : string) : M unit :=
  output_file filename "Bokeh Plot" "cdn" None.

Definition output_notebook : M unit :=
  modify (set__notebook true).

(** [dict(session_id=session_id, url=url, app_path=app_path)]. *)
Definition server_dict (session_id url app_path : string) : PyDict :=
  [("session_id", session_id); ("url", url); ("app_path", app_path)].

Definition output_server (session_id : string) (url : string) (app_path : string) : M unit :=
  sc <- lift (_SessionCoordinates (server_dict session_id url app_path)) ;;
  modify (set__session_coords sc) ;;;
  modify (set__server_enabled true).

(** [output_server(session_id=x)] with the default [url="default"],
    [app_path='/']. *)
Definition output_server_default (session_id : string) : M unit :=
  output_server session_id "default" "/".

(** [__init__]: the object [o] is the freshly allocated instance, whose
    attributes are all assigned by the body before anything reads them. *)
Definition __init__ : M unit :=
  modify (set_last_comms_handle None) ;;;
  reset.

Definition State_new (w : World) (o : State) : (unit + exc) * Conf :=
  __init__ (w, o).

(** ** Every entry point of the class, for frame properties *)

Inductive Value : Type :=
| VNone
| VDoc (d : DocId)
| VFile (f : option FileConfig)
| VBool (b : bool)
| VStr (x : string)
| VOptStr (x : option string).

Inductive Method : Type :=
| M_document
| M_set_document (doc : DocId)
| M_file
| M_notebook
| M_server_enabled
| M_session_id
| M_session_id_allowing_none
| M_url
| M_server_url
| M_app_path
| M__reset_keeping_doc
| M__reset_with_doc (doc : DocId)
| M_reset
| M_output_file (filename title mode : string) (root_dir : option string)
| M_output_notebook
| M_output_server (session_id url app_path : string).

Definition fmap {A B} (f : A -> B) (m : M A) : M B := a <- m ;; ret (f a).

Definition exec (m : Method) : M Value :=
  match m with
  | M_document => fmap VDoc document
  | M_set_document d => fmap (fun _ => VNone) (set_document d)
  | M_file => fmap VFile file
  | M_notebook => fmap VBool notebook
  | M_server_enabled => fmap VBool server_enabled
  | M_session_id => fmap VStr session_id
  | M_session_id_allowing_none => fmap VOptStr session_id_allowing_none
  | M_url => fmap VStr url
  | M_server_url => fmap VStr server_url
  | M_app_path => fmap VStr app_path
  | M__reset_keeping_doc => fmap (fun _ => VNone) _reset_keeping_doc
  | M__reset_with_doc d => fmap (fun _ => VNone) (_reset_with_doc d)
  | M_reset => fmap (fun _ => VNone) reset
  | M_output_file f t mo r => fmap (fun _ => VNone) (output_file f t mo r)
  | M_output_notebook => fmap (fun _ => VNone) output_notebook
  | M_output_server i u p => fmap (fun _ => VNone) (output_server i u p)
  end.

(** The accessors the spec lists as public properties. *)
Definition is_accessor (m : Method) : bool :=
  match m with
  | M_document | M_file | M_notebook | M_server_enabled | M_session_id
  | M_session_id_allowing_none | M_url | M_server_url | M_app_path => true
  | _ => false
  end.

(** The mutator methods the spec lists. *)
Definition is_listed_mutator (m : Method) : bool :=
  match m with
  | M_reset | M_output_file _ _ _ _ | M_output_notebook | M_output_server _ _ _ => true
  | _ => false
  end.

(** Running a sequence of calls, each one on the configuration the
    previous one left (whether it returned or raised). *)
Fixpoint run (ms : list Method) (c : Conf) : Conf :=
  match ms with
  | [] => c
  | m :: ms' => run ms' (snd (exec m c))
  end.

(** Every Document referenced by the object has been allocated. *)
Definition wf (c : Conf) : Prop := _document (snd c) < length (heap (fst c)).

(** A call is well formed when the Document it passes exists. *)
Definition method_wf (m : Method) (c : Conf) : Prop :=
  match m with
  | M_set_document d | M__reset_with_doc d => d < length (heap (fst c))
  | _ => True
  end.

(** ** Effects of a call, for frame properties *)

(** What [exec m] appends to the log. *)
Definition logged (m : Method) (c : Conf) : list string :=
  match m with
  | M_output_file filename _ mode _ =>
      if existsb (String.eqb mode) valid_modes && existsb (String.eqb filename) (fs (fst c))
      then [overwrite_msg filename] else []
  | _ => []
  end.

(** What [exec m] appends to the heap of Documents. *)
Definition allocated (m : Method) : list DocContent :=
  match m with
  | M_reset => [[]]
  | _ => []
  end.

(** Every call of a sequence is well formed where it is made. *)
Fixpoint trace_wf (ms : list Method) (c : Conf) : Prop :=
  match ms with
  | [] => True
  | m :: ms' => method_wf m c /\ trace_wf ms' (snd (exec m c))
  end.

(** ** Equations of the methods *)

Ltac split_conf :=
  repeat match goal with
  | c : Conf |- _ => destruct c
  end.

Lemma output_file_eq (w : World) (s : State) filename title mode root_dir :
  output_file filename title mode root_dir (w, s) =
  if existsb (String.eqb mode) valid_modes
  then (inl tt,
        (mkWorld (heap w) (fs w)
           (if existsb (String.eqb filename) (fs w)
            then log w ++ [overwrite_msg filename] else log w),
         set__file (Some (mkFileConfig filename (mkResources mode root_dir) title)) s))
  else (inr (ValueError (mode_error mode)), (w, s)).
Proof.
  unfold output_file, Resources_new, bind, ret, raise, modify, isfile, logger_info.
  destruct (existsb (String.eqb mode) valid_modes); [|reflexivity].
  simpl. destruct (existsb (String.eqb filename) (fs w)); destruct w; reflexivity.
Qed.

Lemma _reset_keeping_doc_eq (w : World) (s : State) :
  _reset_keeping_doc (w, s) =
  (inl tt, (w, mkState (last_comms_handle s) (_document s) None false
                 (SessionCoordinates_new []) false)).
Proof. reflexivity. Qed.

Lemma _reset_with_doc_eq (w : World) (s : State) doc :
  _reset_with_doc doc (w, s) =
  (inl tt, (w, mkState (last_comms_handle s) doc None false
                 (SessionCoordinates_new []) false)).
Proof. reflexivity. Qed.

Lemma reset_eq (w : World) (s : State) :
  reset (w, s) =
  (inl tt, (mkWorld (heap w ++ [[]]) (fs w) (log w),
            mkState (last_comms_handle s) (length (heap w)) None false
              (SessionCoordinates_new []) false)).
Proof. reflexivity. Qed.

Lemma output_notebook_eq (w : World) (s : State) :
  output_notebook (w, s) = (inl tt, (w, set__notebook true s)).
Proof. reflexivity. Qed.

Lemma _SessionCoordinates_server_dict sid u p :
  _SessionCoordinates (server_dict sid u p) =
  if String.prefix "ws" (if String.eqb u "default" then DEFAULT_SERVER_HTTP_URL else u)
  then inr (ValueError "url should be the http or https URL for the server, not the websocket URL")
  else if negb (String.prefix "/" p)
  then inr (ValueError "app_path should start with a slash (/)")
  else inl (mkSessionCoordinates (Some sid) (Some u) (Some p)).
Proof. reflexivity. Qed.

Lemma output_server_eq (w : World) (s : State) sid u p :
  output_server sid u p (w, s) =
  match _SessionCoordinates (server_dict sid u p) with
  | inl sc => (inl tt, (w, set__server_enabled true (set__session_coords sc s)))
  | inr e => (inr e, (w, s))
  end.
Proof.
  unfold output_server, bind, lift, modify, ret, raise.
  destruct (_SessionCoordinates (server_dict sid u p)); reflexivity.
Qed.

Lemma session_id_eq (w : World) (s : State) :
  session_id (w, s) = (SC_session_id (_session_coords s), (w, s)).
Proof.
  unfold session_id, bind, gets, lift, ret, raise.
  destruct (SC_session_id (_session_coords s)); reflexivity.
Qed.

Lemma exec_accessor_frame (m : Method) (c : Conf) :
  is_accessor m = true -> snd (exec m c) = c.
Proof.
  destruct c as [w s].
  destruct m; simpl; try discriminate; intros _; try reflexivity.
  unfold fmap, bind. rewrite session_id_eq.
  destruct (SC_session_id (_session_coords s)); reflexivity.
Qed.

Lemma heap_prefix_exec (m : Method) (c : Conf) :
  exists extra, heap (fst (snd (exec m c))) = (heap (fst c) ++ extra)%list.
Proof.
  destruct c as [w s].
  destruct m; simpl;
    try (exists []; rewrite app_nil_r; reflexivity).
  - unfold fmap, bind. rewrite session_id_eq.
    exists []; rewrite app_nil_r.
    destruct (SC_session_id (_session_coords s)); reflexivity.
  - exists [[]]. reflexivity.
  - unfold fmap, bind. rewrite output_file_eq.
    exists []; rewrite app_nil_r.
    destruct (existsb (String.eqb mode) valid_modes); [|reflexivity].
    destruct (existsb (String.eqb filename) (fs w)); reflexivity.
  - unfold fmap, bind. rewrite output_server_eq.
    exists []; rewrite app_nil_r.
    destruct (_SessionCoordinates _); reflexivity.
Qed.

Lemma heap_prefix_run (ms : list Method) (c : Conf) :
  exists extra, heap (fst (run ms c)) = (heap (fst c) ++ extra)%list.
Proof.
  revert c. induction ms as [|m ms IH]; intro c; simpl.
  - exists []. rewrite app_nil_r. reflexivity.
  - destruct (heap_prefix_exec m c) as [e1 H1].
    destruct (IH (snd (exec m c))) as [e2 H2].
    exists (e1 ++ e2)%list. rewrite H2, H1, app_assoc. reflexivity.
Qed.

Lemma wf_exec (m : Method) (c : Conf) :
  wf c -> method_wf m c -> wf (snd (exec m c)).
Proof.
  unfold wf, method_wf. destruct c as [w s].
  destruct m; simpl; intros Hwf Hm; try exact Hwf; try exact Hm.
  - unfold fmap, bind. rewrite session_id_eq.
    destruct (SC_session_id (_session_coords s)); exact Hwf.
  - rewrite length_app. simpl. lia.
  - unfold fmap, bind. rewrite output_file_eq.
    destruct (existsb (String.eqb mode) valid_modes); simpl;
      [destruct (existsb (String.eqb filename) (fs w)) |]; exact Hwf.
  - unfold fmap, bind. rewrite output_server_eq.
    destruct (_SessionCoordinates _); exact Hwf.
Qed.

(** ** Unit tests *)

Definition s0 : State := mkState None 0 None false (SessionCoordinates_new []) false.

Example output_file_valid_mode :
  fst (output_file "a.html" "T" "inline" None (mkWorld [[]] [] [], s0)) = inl tt.
Proof. reflexivity. Qed.

Example output_file_bad_mode :
  fst (output_file "a.html" "T" "bogus" None (mkWorld [[]] [] [], s0))
  = inr (ValueError (mode_error "bogus")).
Proof. reflexivity. Qed.

Example output_file_logs_existing :
  log (fst (snd (output_file_default "a.html" (mkWorld [[]] ["a.html"] [], s0))))
  = ["Session output file 'a.html' already exists, will be overwritten."].
Proof. reflexivity. Qed.

Example session_id_after_reset :
  fst (session_id (snd (reset (mkWorld [[]] [] [], s0)))) = inr (ValueError "no session id").
Proof. reflexivity. Qed.

Example url_default_is_localhost :
  fst (url (snd (output_server_default "x" (mkWorld [[]] [] [], s0))))
  = inl DEFAULT_SERVER_HTTP_URL.
Proof. reflexivity. Qed.

Example output_server_rejects_websocket_url :
  fst (output_server "x" "ws://localhost:5006" "/" (mkWorld [[]] [] [], s0))
  = inr (ValueError "url should be the http or https URL for the server, not the websocket URL").
Proof. reflexivity. Qed.

(** ** Claims *)

(** C1: after [reset()] the file configuration is [None], the notebook
    flag and the server-enabled flag are [False], and the session
    coordinates are those built from the empty dict; [reset] returns
    normally. *)
Theorem reset_clears_output_modes (c : Conf) :
  let '(r, (_, s')) := reset c in
  r = inl tt /\ _file s' = None /\ _notebook s' = false /\
  _server_enabled s' = false /\ _session_coords s' = SessionCoordinates_new [].
Proof. destruct c as [w s]. rewrite reset_eq. repeat split. Qed.

(** C2: [output_file(a)] (with any other arguments) followed by
    [output_file(b)] leaves the same file configuration as [output_file(b)]
    alone, whose filename is [b]: last write wins, nothing is merged. *)
Theorem output_file_last_write_wins (c : Conf) (a b title mode : string)
    (root_dir : option string) :
  let c1 := snd (output_file a title mode root_dir c) in
  _file (snd (snd (output_file_default b c1)))
  = _file (snd (snd (output_file_default b c))) /\
  _file (snd (snd (output_file_default b c1)))
  = Some (mkFileConfig b (mkResources "cdn" None) "Bokeh Plot").
Proof.
  destruct c as [w s]. cbv zeta. unfold output_file_default.
  rewrite output_file_eq.
  destruct (existsb (String.eqb mode) valid_modes); simpl;
    rewrite !output_file_eq; simpl; split; reflexivity.
Qed.

(** C3: [output_notebook()] followed by [output_file(...)] (with a mode
    the Resources constructor accepts) leaves both modes active: the
    notebook flag is [True] and the file configuration is the one
    [output_file] built; [output_notebook] leaves the file configuration as
    it was and [output_file] leaves the notebook flag as it was. *)
Theorem output_notebook_then_output_file (c : Conf) filename title mode root_dir
    (Hmode : In mode valid_modes) :
  let c1 := snd (output_notebook c) in
  let '(r, (_, s2)) := output_file filename title mode root_dir c1 in
  _file (snd c1) = _file (snd c) /\
  r = inl tt /\ _notebook s2 = true /\
  _file s2 = Some (mkFileConfig filename (mkResources mode root_dir) title).
Proof.
  destruct c as [w s]. cbv zeta. rewrite output_notebook_eq. simpl.
  rewrite output_file_eq.
  replace (existsb (String.eqb mode) valid_modes) with true.
  - simpl. repeat split.
  - symmetry. apply existsb_exists. exists mode. split; [exact Hmode | apply String.eqb_refl].
Qed.

Lemma output_notebook_then_output_file_witness :
  In "cdn" valid_modes /\
  (let c1 := snd (output_notebook (mkWorld [[]] [] [], s0)) in
   let '(r, (_, s2)) := output_file "b.html" "T" "cdn" None c1 in
   _file (snd c1) = _file s0 /\
   r = inl tt /\ _notebook s2 = true /\
   _file s2 = Some (mkFileConfig "b.html" (mkResources "cdn" None) "T")).
Proof.
  split.
  - simpl. tauto.
  - apply (output_notebook_then_output_file (mkWorld [[]] [] [], s0)). simpl. tauto.
Defined.

(** C4: for every argument tuple (also one the Resources constructor
    rejects), [output_file] changes no attribute other than [_file]: the
    document, the notebook flag, the session coordinates, the
    server-enabled flag and [last_comms_handle] are unchanged, and no
    Document is allocated. *)
Theorem output_file_frame (c : Conf) filename title mode root_dir :
  let c' := snd (output_file filename title mode root_dir c) in
  _document (snd c') = _document (snd c) /\
  _notebook (snd c') = _notebook (snd c) /\
  _session_coords (snd c') = _session_coords (snd c) /\
  _server_enabled (snd c') = _server_enabled (snd c) /\
  last_comms_handle (snd c') = last_comms_handle (snd c) /\
  heap (fst c') = heap (fst c).
Proof.
  destruct c as [w s]. cbv zeta. rewrite output_file_eq.
  destruct (existsb (String.eqb mode) valid_modes); simpl; repeat split.
Qed.

(** C5: [output_server(session_id="x")], with the default [url="default"]
    and [app_path='/'] (which the session coordinates constructor
    accepts), returns normally and sets the server-enabled flag, after
    which the [session_id] property returns ["x"] without changing
    anything. *)
Theorem output_server_session_id (c : Conf) :
  let '(r, c') := output_server_default "x" c in
  r = inl tt /\ _server_enabled (snd c') = true /\ session_id c' = (inl "x", c').
Proof.
  destruct c as [w s]. unfold output_server_default.
  rewrite output_server_eq, _SessionCoordinates_server_dict. simpl.
  split; [reflexivity|]. split; [reflexivity|].
  rewrite session_id_eq. reflexivity.
Qed.

(** C6 (as stated): every accessor leaves the object as it is, and the
    only calls that change it are [reset], [output_file],
    [output_notebook] and [output_server]. *)
Definition claim_C6 : Prop :=
  (forall m c, is_accessor m = true -> snd (exec m c) = c) /\
  (forall m c, snd (exec m c) <> c -> is_listed_mutator m = true).

(** C6 fails: the [document] property has a setter, which replaces the
    Document and is none of the four listed mutators. *)
Lemma document_setter_mutates :
  ~ claim_C6.
Proof.
  intros [_ H].
  assert (Hne : snd (exec (M_set_document 1) (mkWorld [[]; []] [] [], s0))
                <> (mkWorld [[]; []] [] [], s0)) by discriminate.
  specialize (H _ _ Hne). discriminate H.
Qed.

(** C6 amended: reading any accessor returns the object unchanged; the
    calls that change it are the four listed mutators, the [document]
    setter, and the private [_reset_keeping_doc] and [_reset_with_doc]. *)
Theorem accessors_read_only (m : Method) (c : Conf) :
  (is_accessor m = true -> snd (exec m c) = c) /\
  (snd (exec m c) <> c ->
   is_listed_mutator m = true \/ m = M__reset_keeping_doc \/
   exists doc, m = M_set_document doc \/ m = M__reset_with_doc doc).
Proof.
  split.
  - apply exec_accessor_frame.
  - intros Hch. destruct m; simpl; auto;
      try (exfalso; apply Hch, exec_accessor_frame; reflexivity);
      right; right; eexists; eauto.
Qed.

(** C7: when the object refers to an allocated Document, [reset]
    installs a newly allocated, empty Document different from the one it
    held; after any further calls, a second [reset] installs a Document
    different from the first one. *)
Theorem reset_installs_fresh_document (c : Conf) (ms : list Method)
    (Hwf : wf c) :
  let c1 := snd (reset c) in
  let c2 := snd (reset (run ms c1)) in
  _document (snd c1) <> _document (snd c) /\
  nth_error (heap (fst c1)) (_document (snd c1)) = Some [] /\
  length (heap (fst c)) <= _document (snd c1) /\
  _document (snd c2) <> _document (snd c1).
Proof.
  unfold wf in Hwf. destruct c as [w s]. cbv zeta.
  rewrite reset_eq. simpl in *.
  pose proof (heap_prefix_run ms (mkWorld (heap w ++ [[]]) (fs w) (log w),
              mkState (last_comms_handle s) (length (heap w)) None false
                (SessionCoordinates_new []) false)) as [e He].
  destruct (run ms _) as [w2 s2]. simpl in He.
  apply (f_equal (@length _)) in He. rewrite !length_app in He. simpl in He.
  rewrite reset_eq. simpl.
  repeat split; try lia.
  rewrite nth_error_app2 by lia. rewrite Nat.sub_diag. reflexivity.
Qed.

Lemma reset_installs_fresh_document_witness :
  wf (mkWorld [[]] [] [], s0) /\
  (let c1 := snd (reset (mkWorld [[]] [] [], s0)) in
   let c2 := snd (reset (run [M_output_notebook; M_reset] c1)) in
   _document (snd c1) <> _document s0 /\
   nth_error (heap (fst c1)) (_document (snd c1)) = Some [] /\
   length [@nil nat] <= _document (snd c1) /\
   _document (snd c2) <> _document (snd c1)).
Proof.
  split.
  - unfold wf. simpl. lia.
  - apply (reset_installs_fresh_document (mkWorld [[]] [] [], s0)
             [M_output_notebook; M_reset]).
    unfold wf. simpl. lia.
Defined.

(** C8: [_reset_keeping_doc] clears every output mode (file
    configuration [None], notebook flag [False], empty session
    coordinates, server-enabled flag [False]) and keeps the Document; it
    allocates nothing. *)
Theorem reset_keeping_doc_keeps_document (c : Conf) :
  let '(r, (w', s')) := _reset_keeping_doc c in
  r = inl tt /\ w' = fst c /\ _document s' = _document (snd c) /\
  _file s' = None /\ _notebook s' = false /\
  _session_coords s' = SessionCoordinates_new [] /\ _server_enabled s' = false.
Proof. destruct c as [w s]. rewrite _reset_keeping_doc_eq. repeat split. Qed.

(** C9: whether or not a file named [filename] exists, [output_file]
    with a mode the Resources constructor accepts returns normally and
    sets the file configuration to the new values; the only effect of an
    existing file is one informational log record. *)
Theorem output_file_existing_file_only_logs (w : World) (s : State)
    filename title mode root_dir (Hmode : In mode valid_modes) :
  output_file filename title mode root_dir (w, s) =
  (inl tt,
   (mkWorld (heap w) (fs w)
      (if existsb (String.eqb filename) (fs w)
       then log w ++ [overwrite_msg filename] else log w),
    set__file (Some (mkFileConfig filename (mkResources mode root_dir) title)) s)).
Proof.
  rewrite output_file_eq.
  replace (existsb (String.eqb mode) valid_modes) with true; [reflexivity|].
  symmetry. apply existsb_exists. exists mode. split; [exact Hmode | apply String.eqb_refl].
Qed.

Lemma output_file_existing_file_only_logs_witness :
  In "cdn" valid_modes /\
  output_file "a.html" "T" "cdn" None (mkWorld [[]] ["a.html"] [], s0) =
  (inl tt,
   (mkWorld [[]] ["a.html"]
      (if existsb (String.eqb "a.html") ["a.html"]
       then [] ++ [overwrite_msg "a.html"] else []),
    set__file (Some (mkFileConfig "a.html" (mkResources "cdn" None) "T")) s0)).
Proof.
  split.
  - simpl. tauto.
  - apply (output_file_existing_file_only_logs (mkWorld [[]] ["a.html"] []) s0).
    simpl. tauto.
Defined.

(** C10: a newly constructed [State] is in the reset configuration: it
    owns a freshly allocated empty Document, no file configuration, both
    flags [False], empty session coordinates, and [last_comms_handle] is
    [None], whatever the attributes of the blank instance were. *)
Theorem State_new_is_reset (w : World) (o : State) :
  State_new w o =
  (inl tt, (mkWorld (heap w ++ [[]]) (fs w) (log w),
            mkState None (length (heap w)) None false (SessionCoordinates_new []) false)) /\
  nth_error (heap w ++ [[]]) (length (heap w)) = Some [].
Proof.
  split; [reflexivity|].
  rewrite nth_error_app2 by lia. rewrite Nat.sub_diag. reflexivity.
Qed.

(** ** Further properties of the methods *)

(** Reduces [exec m c] for every method [m] to the equations above. *)
Ltac exec_cases :=
  unfold fmap, bind;
  try rewrite session_id_eq; try rewrite output_file_eq; try rewrite output_server_eq;
  repeat match goal with
  | |- context [_SessionCoordinates (server_dict ?i ?u ?p)] =>
      destruct (_SessionCoordinates (server_dict i u p))
  | |- context [existsb ?f ?l] => destruct (existsb f l)
  | |- context [SC_session_id ?c] => destruct (SC_session_id c)
  end; simpl; auto.

Lemma last_comms_handle_exec (m : Method) (c : Conf) :
  last_comms_handle (snd (snd (exec m c))) = last_comms_handle (snd c).
Proof. destruct c as [w s]. destruct m; simpl; exec_cases. Qed.

Lemma last_comms_handle_run (ms : list Method) (c : Conf) :
  last_comms_handle (snd (run ms c)) = last_comms_handle (snd c).
Proof.
  revert c. induction ms as [|m ms IH]; intro c; simpl; [reflexivity|].
  rewrite IH. apply last_comms_handle_exec.
Qed.

Lemma run_app (ms1 ms2 : list Method) (c : Conf) :
  run (ms1 ++ ms2) c = run ms2 (run ms1 c).
Proof.
  revert c. induction ms1 as [|m ms IH]; intro c; simpl; [reflexivity|]. apply IH.
Qed.

(** [output_notebook] and [output_file] act on disjoint attributes: in
    either order they leave the same object and world, also when
    [output_file] raises. *)
Theorem output_notebook_output_file_commute (c : Conf) filename title mode root_dir :
  snd (output_file filename title mode root_dir (snd (output_notebook c)))
  = snd (output_notebook (snd (output_file filename title mode root_dir c))).
Proof.
  destruct c as [w s]. rewrite output_notebook_eq. simpl. rewrite output_file_eq.
  rewrite output_file_eq.
  destruct (existsb (String.eqb mode) valid_modes); simpl; reflexivity.
Qed.

(** [output_server] and [output_file] commute in the same way. *)
Theorem output_server_output_file_commute (c : Conf) sid u p filename title mode root_dir :
  snd (output_file filename title mode root_dir (snd (output_server sid u p c)))
  = snd (output_server sid u p (snd (output_file filename title mode root_dir c))).
Proof.
  destruct c as [w s]. rewrite output_server_eq.
  destruct (_SessionCoordinates (server_dict sid u p)) eqn:E; simpl;
    rewrite !output_file_eq;
    destruct (existsb (String.eqb mode) valid_modes); simpl;
    rewrite output_server_eq, E; reflexivity.
Qed.

(** [output_server] and [output_notebook] commute. *)
Theorem output_server_output_notebook_commute (c : Conf) sid u p :
  snd (output_notebook (snd (output_server sid u p c)))
  = snd (output_server sid u p (snd (output_notebook c))).
Proof.
  destruct c as [w s]. rewrite output_server_eq, output_notebook_eq. simpl.
  rewrite output_server_eq.
  destruct (_SessionCoordinates (server_dict sid u p)); reflexivity.
Qed.

(** A second [output_server] call whose arguments the session
    coordinates constructor accepts replaces the coordinates of the first
    entirely: the two calls leave what the second alone leaves. *)
Theorem output_server_last_write_wins (c : Conf) sid1 u1 p1 sid2 u2 p2
    (Hok : fst (output_server sid2 u2 p2 c) = inl tt) :
  output_server sid2 u2 p2 (snd (output_server sid1 u1 p1 c))
  = output_server sid2 u2 p2 c.
Proof.
  destruct c as [w s]. rewrite output_server_eq in Hok.
  rewrite (output_server_eq w s sid1).
  destruct (_SessionCoordinates (server_dict sid2 u2 p2)) eqn:E2; [|discriminate Hok].
  destruct (_SessionCoordinates (server_dict sid1 u1 p1)); simpl;
    rewrite output_server_eq, E2, ?output_server_eq, ?E2; reflexivity.
Qed.

Lemma output_server_last_write_wins_witness :
  fst (output_server "b" "default" "/" (mkWorld [[]] [] [], s0)) = inl tt /\
  output_server "b" "default" "/" (snd (output_server "a" "http://h:1/" "/app" (mkWorld [[]] [] [], s0)))
  = output_server "b" "default" "/" (mkWorld [[]] [] [], s0).
Proof.
  assert (H : fst (output_server "b" "default" "/" (mkWorld [[]] [] [], s0)) = inl tt)
    by reflexivity.
  split; [exact H|].
  apply (output_server_last_write_wins (mkWorld [[]] [] [], s0)). exact H.
Defined.

(** When the session coordinates constructor rejects the app path (one
    not starting with a slash), [output_server] raises before assigning
    anything: the previous coordinates and server-enabled flag survive. *)
Theorem output_server_rejected_app_path_no_effect (c : Conf) sid u p
    (Hp : String.prefix "/" p = false) :
  exists e, output_server sid u p c = (inr e, c).
Proof.
  destruct c as [w s]. rewrite output_server_eq, _SessionCoordinates_server_dict, Hp.
  destruct (String.prefix "ws" _); simpl; eexists; reflexivity.
Qed.

Lemma output_server_rejected_app_path_no_effect_witness :
  String.prefix "/" "app" = false /\
  exists e, output_server "x" "default" "app" (mkWorld [[]] [] [], s0)
            = (inr e, (mkWorld [[]] [] [], s0)).
Proof.
  assert (H : String.prefix "/" "app" = false) by reflexivity.
  split; [exact H|].
  apply (output_server_rejected_app_path_no_effect (mkWorld [[]] [] [], s0)). exact H.
Defined.

(** When the Resources constructor rejects the mode, [output_file] raises
    before assigning [_file]: the previous file configuration survives and
    nothing is logged. *)
Theorem output_file_rejected_mode_no_effect (c : Conf) filename title mode root_dir
    (Hmode : ~ In mode valid_modes) :
  output_file filename title mode root_dir c = (inr (ValueError (mode_error mode)), c).
Proof.
  destruct c as [w s]. rewrite output_file_eq.
  destruct (existsb (String.eqb mode) valid_modes) eqn:E; [|reflexivity].
  exfalso. apply Hmode. apply existsb_exists in E as [x [Hx Heq]].
  apply String.eqb_eq in Heq. subst x. exact Hx.
Qed.

Lemma output_file_rejected_mode_no_effect_witness :
  ~ In "server" valid_modes /\
  output_file "a.html" "T" "server" None (mkWorld [[]] [] [], s0)
  = (inr (ValueError (mode_error "server")), (mkWorld [[]] [] [], s0)).
Proof.
  assert (H : ~ In "server" valid_modes) by (simpl; intuition discriminate).
  split; [exact H|].
  apply (output_file_rejected_mode_no_effect (mkWorld [[]] [] [], s0)). exact H.
Defined.

(** No method touches the file system: [output_file] only tests whether
    the file exists and never creates or removes one. *)
Theorem exec_never_writes_files (m : Method) (c : Conf) :
  fs (fst (snd (exec m c))) = fs (fst c).
Proof. destruct c as [w s]. destruct m; simpl; exec_cases. Qed.

(** The log only grows, and only through [output_file]: a call appends
    the overwrite note exactly when the mode is accepted and the target
    file already exists, and nothing otherwise. *)
Theorem exec_log_only_overwrite_note (m : Method) (c : Conf) :
  log (fst (snd (exec m c))) = (log (fst c) ++ logged m c)%list.
Proof.
  destruct c as [w s]. destruct m; cbn [exec logged allocated fst]; exec_cases;
    rewrite ?app_nil_r; reflexivity.
Qed.

(** Documents are only ever allocated, by [reset], one at a time and
    empty; no call changes or drops an existing Document. *)
Theorem exec_heap_only_reset_allocates (m : Method) (c : Conf) :
  heap (fst (snd (exec m c))) = (heap (fst c) ++ allocated m)%list.
Proof.
  destruct c as [w s]. destruct m; cbn [exec logged allocated fst]; exec_cases;
    rewrite ?app_nil_r; reflexivity.
Qed.

(** [last_comms_handle] is set to [None] by [__init__] and no method of
    the class assigns it afterwards. *)
Theorem last_comms_handle_stays_None (w : World) (o : State) (ms : list Method) :
  last_comms_handle (snd (run ms (snd (State_new w o)))) = None.
Proof. rewrite last_comms_handle_run. reflexivity. Qed.

(** Starting from a new object, the [document] attribute always refers
    to an allocated Document, whatever sequence of calls is made (each
    passing only existing Documents). *)
Theorem document_always_allocated (w : World) (o : State) (ms : list Method)
    (Hms : trace_wf ms (snd (State_new w o))) :
  wf (run ms (snd (State_new w o))).
Proof.
  assert (H0 : wf (snd (State_new w o))).
  { unfold wf. simpl. rewrite length_app. simpl. lia. }
  revert Hms H0. generalize (snd (State_new w o)) as c.
  induction ms as [|m ms IH]; intros c Hms Hc; simpl in *; [exact Hc|].
  destruct Hms as [Hm Hms]. apply IH; [exact Hms|]. apply wf_exec; assumption.
Qed.

Lemma document_always_allocated_witness :
  trace_wf [M_output_notebook; M_set_document 0; M_reset]
    (snd (State_new (mkWorld [] [] []) s0)) /\
  wf (run [M_output_notebook; M_set_document 0; M_reset]
        (snd (State_new (mkWorld [] [] []) s0))).
Proof.
  assert (H : trace_wf [M_output_notebook; M_set_document 0; M_reset]
                (snd (State_new (mkWorld [] [] []) s0))).
  { simpl. repeat split; lia. }
  split; [exact H|]. apply document_always_allocated. exact H.
Defined.

(** [reset] discards whatever any earlier sequence of calls configured:
    afterwards the object holds the newly allocated Document, no output
    mode, and the [last_comms_handle] it had at the start. *)
Theorem reset_after_any_calls (ms : list Method) (c : Conf) :
  snd (run (ms ++ [M_reset]) c)
  = mkState (last_comms_handle (snd c)) (length (heap (fst (run ms c))))
      None false (SessionCoordinates_new []) false.
Proof.
  rewrite run_app. simpl.
  rewrite <- (last_comms_handle_run ms c).
  destruct (run ms c) as [w s]. reflexivity.
Qed.

End BokehState.
